(** * SkinPilot backend: the OTP endpoints of [main.py]

    A shallow embedding of the two OTP handlers of [main.py], [send_otp]
    ([POST /send-otp]) and [verify_otp] ([POST /verify-otp]), together with
    the module-level dictionary [otp_store] they share, and proofs of the
    lifecycle properties of a one-time passcode: issuance, single use,
    retry after a wrong code, expiry, overwriting.  The error mapping of
    [chat] ([POST /chat]) is embedded and verified as well.

    Modelling choices.
    - A Python [str] is a [string]; the handlers only test strings for
      emptiness and equality and concatenate them.
    - [otp_store], a [dict] from phone to the tuple [(code, expiry_ts)], is a
      [gmap string (string * float)].
    - [time.time()] returns a binary64 float: timestamps are primitive floats,
      [+] is [PrimFloat.add] and [a > b] is [PrimFloat.ltb b a].
    - [random.randint], [time.time] and the HTTP call to the SMS provider are
      answered by a [World], one per request; every call made is logged, so
      that "nothing was generated" and "no delivery was attempted" can be
      stated.
    - [raise HTTPException(...)] ends the handler with an error and keeps the
      changes already made to [otp_store]. *)

From Stdlib Require Import PrimFloat.
From Stdlib Require Uint63 FloatAxioms SpecFloat FloatOps.
From Stdlib Require Import ZArith Lia List Bool Ascii String.
From stdpp Require Import gmap strings.

Import ListNotations.
Local Open Scope string_scope.
Local Open Scope Z_scope.

(** ** Python strings and the format specification [06d] *)

Module Py.

(** Truth value of a [str]: the empty string is false. *)
Definition truthy (s : string) : bool :=
  match s with
  | EmptyString => false
  | String _ _ => true
  end.

(** Truth value of the result of [os.getenv]: [None] and [''] are false. *)
Definition truthy_opt (o : option string) : bool :=
  match o with
  | None => false
  | Some s => truthy s
  end.

(** [s != t] on strings. *)
Definition str_ne (s t : string) : bool := negb (String.eqb s t).

(** The character of a decimal digit [0 <= d <= 9]. *)
Definition digit_char (d : Z) : ascii := ascii_of_nat (48 + Z.to_nat d).

(** Decimal digits of [n >= 0], most significant first, pushed in front of
    [acc]; [fuel] bounds the number of digits. *)
Fixpoint str_digits (fuel : nat) (n : Z) (acc : string) : string :=
  match fuel with
  | O => acc
  | S fuel' =>
      let acc' := String (digit_char (n mod 10)) acc in
      if n <? 10 then acc' else str_digits fuel' (n / 10) acc'
  end.

(** [str(n)] for [n >= 0]: a number below [2 ^ k] has at most [k] digits. *)
Definition str_nonneg (n : Z) : string :=
  str_digits (S (Z.to_nat (Z.log2 n))) n "".

Fixpoint zeros (k : nat) : string :=
  match k with
  | O => ""
  | S k' => String "0" (zeros k')
  end.

(** Zero padding of the digits to [width] characters; longer digit strings are
    left as they are. *)
Definition zero_pad (width : nat) (digits : string) : string :=
  zeros (width - String.length digits) +:+ digits.

(** [f"{n:06d}"]: sign-aware zero padding to a minimum width of six. *)
Definition format_06d (n : Z) : string :=
  if n <? 0 then String "-" (zero_pad 5 (str_nonneg (- n)))
  else zero_pad 6 (str_nonneg n).

(** ['0' <= c <= '9'] *)
Definition is_digit (c : ascii) : bool :=
  let k := nat_of_ascii c in ((48 <=? k)%nat && (k <=? 57)%nat)%bool.

Fixpoint all_digits (s : string) : bool :=
  match s with
  | EmptyString => true
  | String c s' => is_digit c && all_digits s'
  end.

(** The regular expression [^[0-9]{6}$] on a string without line breaks. *)
Definition six_digits (s : string) : bool :=
  (String.length s =? 6)%nat && all_digits s.

(** The number a string of decimal digits denotes ([int(s)]), read left to
    right from the accumulator [acc]. *)
Fixpoint int_of_digits (acc : Z) (s : string) : Z :=
  match s with
  | EmptyString => acc
  | String c s' => int_of_digits (10 * acc + (Z.of_nat (nat_of_ascii c) - 48)) s'
  end.

End Py.

(** ** Requests, responses and the outside world *)

(** [class OTPRequest(BaseModel)] *)
Module OTPRequest.
Record t := { phone : string }.
End OTPRequest.

(** [class OTPVerifyRequest(BaseModel)] *)
Module OTPVerifyRequest.
Record t := { phone : string; code : string }.
End OTPVerifyRequest.

(** [raise HTTPException(status_code=..., detail=...)] *)
Inductive exn : Type :=
| HTTPException (status_code : Z) (detail : string).

(** The values of the JSON objects the handlers return. *)
Inductive json : Type :=
| JBool (b : bool)
| JStr (s : string).

(** A returned [dict], in insertion order. *)
Abbreviation response := (list (string * json)).

(** A call that leaves the process. *)
Inductive call : Type :=
| RandomRandint (a b : Z)
| TimeTime
| HttpxPost (url : string) (data : list (string * string)) (auth : string * string).

(** What the outside answers during one request: the integer drawn by
    [random.randint], the reading of [time.time()], and the fate of the
    [try] block around [client.post(...)] and [resp.raise_for_status()]:
    [None] when it completes, [Some msg] when it raises an exception [e]
    with [str(e) = msg]. *)
Record World : Type := {
  w_randint : Z;
  w_time : float;
  w_post : string -> list (string * string) -> string * string -> option string
}.

(** A handler reads the world and [otp_store]; it returns or raises, leaves a
    new [otp_store] and the list of outside calls it made. *)
Definition M (A : Type) : Type :=
  World -> gmap string (string * float) ->
  (exn + A) * gmap string (string * float) * list call.

Definition ret {A} (a : A) : M A := fun _ s => (inr a, s, []).

Definition raise {A} (e : exn) : M A := fun _ s => (inl e, s, []).

Definition bind {A B} (m : M A) (f : A -> M B) : M B :=
  fun w s =>
    match m w s with
    | (inl e, s1, t1) => (inl e, s1, t1)
    | (inr a, s1, t1) =>
        match f a w s1 with
        | (r, s2, t2) => (r, s2, (t1 ++ t2)%list)
        end
    end.

Declare Scope handler_scope.
Delimit Scope handler_scope with handler.
Notation "x <- m ;; k" := (bind m (fun x => k))
  (at level 100, m at next level, right associativity) : handler_scope.
Notation "m ;; k" := (bind m (fun _ => k))
  (at level 100, right associativity) : handler_scope.

(** [random.randint(a, b)] *)
Definition random_randint (a b : Z) : M Z :=
  fun w s => (inr (w_randint w), s, [RandomRandint a b]).

(** [time.time()] *)
Definition time_time : M float :=
  fun w s => (inr (w_time w), s, [TimeTime]).

(** The [try] block of [send_otp]; the result is [str(e)] of the exception
    caught by [except Exception as e], if any. *)
Definition httpx_post (url : string) (data : list (string * string))
    (auth : string * string) : M (option string) :=
  fun w s => (inr (w_post w url data auth), s, [HttpxPost url data auth]).

(** [otp_store.get(phone)] *)
Definition otp_store_get (phone : string) : M (option (string * float)) :=
  fun _ s => (inr (s !! phone), s, []).

(** [otp_store[phone] = rec] *)
Definition otp_store_set (phone : string) (rec : string * float) : M unit :=
  fun _ s => (inr tt, <[phone := rec]> s, []).

(** [del otp_store[phone]]; the handlers delete only a key they have just
    read, so the [KeyError] of an absent key cannot occur. *)
Definition otp_store_del (phone : string) : M unit :=
  fun _ s => (inr tt, delete phone s, []).

(** ** The handlers *)

(** [5*60] as the float it becomes in [time.time() + 5*60]. *)
Definition ttl : float := PrimFloat.of_uint63 (Uint63.of_Z (5 * 60)).

Section Handlers.

(** [os.getenv('TWILIO_ACCOUNT_SID')], [os.getenv('TWILIO_AUTH_TOKEN')] and
    [os.getenv('TWILIO_FROM_NUMBER')], read once when the module is loaded. *)
Variables TWILIO_ACCOUNT TWILIO_TOKEN TWILIO_FROM : option string.

Definition env_str (o : option string) : string := default "None" o.

Local Open Scope handler_scope.

(** [@app.post('/send-otp')] *)
Definition send_otp (req : OTPRequest.t) : M response :=
  let phone := OTPRequest.phone req in
  if negb (Py.truthy phone) then
    raise (HTTPException 400 "phone required")
  else
    n <- random_randint 0 999999 ;;
    let code := Py.format_06d n in
    now <- time_time ;;
    let expiry := PrimFloat.add now ttl in
    otp_store_set phone (code, expiry) ;;
    if Py.truthy_opt TWILIO_ACCOUNT && Py.truthy_opt TWILIO_TOKEN
       && Py.truthy_opt TWILIO_FROM
    then
      let url := "https://api.twilio.com/2010-04-01/Accounts/"
                 +:+ env_str TWILIO_ACCOUNT +:+ "/Messages.json" in
      let data := [("To", phone); ("From", env_str TWILIO_FROM);
                   ("Body", "Your SkinPilot OTP is " +:+ code)] in
      r <- httpx_post url data (env_str TWILIO_ACCOUNT, env_str TWILIO_TOKEN) ;;
      match r with
      | Some e => raise (HTTPException 500 ("Twilio send error: " +:+ e))
      | None => ret [("sent", JBool true)]
      end
    else
      ret [("sent", JBool true); ("code", JStr code)].

(** [@app.post('/verify-otp')] *)
Definition verify_otp (req : OTPVerifyRequest.t) : M response :=
  let phone := OTPVerifyRequest.phone req in
  let code := OTPVerifyRequest.code req in
  rec <- otp_store_get phone ;;
  match rec with
  | None => raise (HTTPException 400 "no otp for phone")
  | Some (saved_code, expiry) =>
      now <- time_time ;;
      if PrimFloat.ltb expiry now then
        otp_store_del phone ;;
        raise (HTTPException 400 "otp expired")
      else if Py.str_ne code saved_code then
        raise (HTTPException 400 "invalid code")
      else
        otp_store_del phone ;;
        ret [("verified", JBool true)]
  end.

(** ** The server: requests handled one after the other *)

(** A request as it reaches the application, with the world that answers its
    outside calls.  No handler awaits between two of its accesses to
    [otp_store] ([send_otp] awaits the provider after its only write), so on
    the single event loop the accesses of two requests never interleave. *)
Inductive request : Type :=
| SendOtp (req : OTPRequest.t) (w : World)
| VerifyOtp (req : OTPVerifyRequest.t) (w : World).

Definition handle (s : gmap string (string * float)) (r : request)
  : (exn + response) * gmap string (string * float) * list call :=
  match r with
  | SendOtp req w => send_otp req w s
  | VerifyOtp req w => verify_otp req w s
  end.

(** The store after a sequence of requests. *)
Definition serve (s : gmap string (string * float)) (rs : list request)
  : gmap string (string * float) :=
  fold_left (fun s r => (handle s r).1.2) rs s.

End Handlers.

(** The store when the module has just been loaded: [otp_store = {}]. *)
Definition otp_store : gmap string (string * float) := ∅.

(** The tuple [(code, expiry)] that [send_otp] stores in world [w]. *)
Definition challenge (w : World) : string * float :=
  (Py.format_06d (w_randint w), (w_time w + ttl)%float).

(** [TWILIO_ACCOUNT and TWILIO_TOKEN and TWILIO_FROM] *)
Definition twilio_configured (account token from : option string) : bool :=
  Py.truthy_opt account && Py.truthy_opt token && Py.truthy_opt from.

(** The errors of the specification, as the handlers raise them. *)
Definition InvalidRequest : exn := HTTPException 400 "phone required".
Definition NoChallenge : exn := HTTPException 400 "no otp for phone".
Definition Expired : exn := HTTPException 400 "otp expired".
Definition Mismatch : exn := HTTPException 400 "invalid code".

(** The class of a status code: 4xx is the client's error, 5xx the server's. *)
Definition status_of (e : exn) : Z :=
  match e with HTTPException status_code _ => status_code end.

Definition client_error (e : exn) : bool :=
  (400 <=? status_of e) && (status_of e <? 500).

Definition server_error (e : exn) : bool :=
  (500 <=? status_of e) && (status_of e <? 600).

(** [{'verified': True}] *)
Definition verified : response := [("verified", JBool true)].

(** ** Sequences of requests *)

(** The phone a request is about. *)
Definition request_phone (r : request) : string :=
  match r with
  | SendOtp req _ => OTPRequest.phone req
  | VerifyOtp req _ => OTPVerifyRequest.phone req
  end.

Definition is_send_otp (r : request) : bool :=
  match r with
  | SendOtp _ _ => true
  | VerifyOtp _ _ => false
  end.

(** [random.randint(0, 999999)] answers within its bounds. *)
Definition draw_in_range (r : request) : Prop :=
  match r with
  | SendOtp _ w => 0 <= w_randint w <= 999999
  | VerifyOtp _ _ => True
  end.

(** One more try at the code of [phone]: the code sent and the world it is
    sent in. *)
Definition attempt (phone : string) (a : string * World) : request :=
  VerifyOtp {| OTPVerifyRequest.phone := phone; OTPVerifyRequest.code := a.1 |} a.2.

(** [r] is a [send_otp] request for the phone [q]. *)
Definition is_issue_of (q : string) (r : request) : bool :=
  match r with
  | SendOtp req _ => String.eqb (OTPRequest.phone req) q
  | VerifyOtp _ _ => false
  end.

(** [r] is a [verify_otp] request for the phone [q]. *)
Definition is_verify_of (q : string) (r : request) : bool :=
  match r with
  | SendOtp _ _ => false
  | VerifyOtp req _ => String.eqb (OTPVerifyRequest.phone req) q
  end.

(** The handler returned instead of raising. *)
Definition returned {A} (res : exn + A) : bool :=
  match res with
  | inl _ => false
  | inr _ => true
  end.

(** How many [verify_otp] requests for [q] are answered [{'verified': True}]
    when the requests [rs] are handled in turn from the store [s]. *)
Fixpoint accepted (account token from : option string) (q : string)
    (s : gmap string (string * float)) (rs : list request) : nat :=
  match rs with
  | [] => 0
  | r :: rs' =>
      let out := handle account token from s r in
      ((if is_verify_of q r && returned out.1.1 then 1 else 0)
       + accepted account token from q out.1.2 rs')%nat
  end.

(** ** The chat endpoint *)

(** [class ChatRequest(BaseModel)] *)
Module ChatRequest.
Record t := { message : string }.
End ChatRequest.






(** ** Scenarios *)

(** A phone number, and a second one. *)
Definition alice : string := "+15550001".
Definition bob : string := "+15550002".

(** A world that draws [n] at time [now]; its provider accepts every post. *)
Definition world_at (n : Z) (now : float) : World :=
  {| w_randint := n; w_time := now; w_post := fun _ _ _ => None |}.

(** A provider that answers 401: [resp.raise_for_status()] raises
    [httpx.HTTPStatusError], whose message names the status and the URL of
    the request. *)
Definition unauthorized (url : string) (data : list (string * string))
    (auth : string * string) : option string :=
  Some ("Client error '401 Unauthorized' for url '" +:+ url +:+ "'").

(** The store with the single challenge ["042017"] for [alice], issued at
    time [1000]. *)
Definition pending_alice : gmap string (string * float) :=
  <[alice := ("042017", 1300%float)]> otp_store.



(** ** The format of the codes *)

Example format_06d_42017 : Py.format_06d 42017 = "042017".
Proof. reflexivity. Qed.

Example format_06d_0 : Py.format_06d 0 = "000000".
Proof. reflexivity. Qed.

Example format_06d_999999 : Py.format_06d 999999 = "999999".
Proof. reflexivity. Qed.

Example format_06d_wide : Py.format_06d 1234567 = "1234567".
Proof. reflexivity. Qed.

Example format_06d_negative : Py.format_06d (-5) = "-00005".
Proof. reflexivity. Qed.

Example ttl_is_300 : ttl = 300%float.
Proof. reflexivity. Qed.

(** ** Digits *)

Lemma all_digits_cons (c : ascii) (s : string) :
  Py.all_digits (String c s) = Py.is_digit c && Py.all_digits s.
Proof. reflexivity. Qed.

Lemma int_of_digits_cons (a : Z) (c : ascii) (s : string) :
  Py.int_of_digits a (String c s)
  = Py.int_of_digits (10 * a + (Z.of_nat (nat_of_ascii c) - 48)) s.
Proof. reflexivity. Qed.

Lemma str_digits_S (fuel : nat) (n : Z) (acc : string) :
  Py.str_digits (S fuel) n acc
  = if n <? 10 then String (Py.digit_char (n mod 10)) acc
    else Py.str_digits fuel (n / 10) (String (Py.digit_char (n mod 10)) acc).
Proof. reflexivity. Qed.


Lemma append_cons (c : ascii) (s t : string) :
  String c s +:+ t = String c (s +:+ t).
Proof. reflexivity. Qed.

Lemma append_nil_r (s : string) : s +:+ "" = s.
Proof.
  induction s as [|c s IH]; [reflexivity |].
  now rewrite append_cons, IH.
Qed.

Lemma length_append (s t : string) :
  String.length (s +:+ t) = (String.length s + String.length t)%nat.
Proof.
  induction s as [|c s IH]; [reflexivity |].
  rewrite append_cons. simpl. now rewrite IH.
Qed.

Lemma append_assoc (s t u : string) : (s +:+ t) +:+ u = s +:+ (t +:+ u).
Proof.
  induction s as [|c s IH]; [reflexivity |].
  now rewrite !append_cons, IH.
Qed.

Lemma all_digits_append (s t : string) :
  Py.all_digits (s +:+ t) = Py.all_digits s && Py.all_digits t.
Proof.
  induction s as [|c s IH]; [reflexivity |].
  now rewrite append_cons, !all_digits_cons, IH, andb_assoc.
Qed.

Lemma int_of_digits_append (s t : string) (a : Z) :
  Py.int_of_digits a (s +:+ t) = Py.int_of_digits (Py.int_of_digits a s) t.
Proof.
  revert a; induction s as [|c s IH]; intros a; [reflexivity |].
  rewrite append_cons, !int_of_digits_cons. apply IH.
Qed.

Lemma digit_char_code (d : Z) :
  0 <= d <= 9 -> nat_of_ascii (Py.digit_char d) = (48 + Z.to_nat d)%nat.
Proof.
  intros Hd. unfold Py.digit_char. apply nat_ascii_embedding. lia.
Qed.

Lemma digit_char_is_digit (d : Z) :
  0 <= d <= 9 -> Py.is_digit (Py.digit_char d) = true.
Proof.
  intros Hd. unfold Py.is_digit. rewrite digit_char_code by assumption.
  apply andb_true_iff. split; apply Nat.leb_le; lia.
Qed.

Lemma digit_char_value (d : Z) :
  0 <= d <= 9 -> Z.of_nat (nat_of_ascii (Py.digit_char d)) - 48 = d.
Proof. intros Hd. rewrite digit_char_code by assumption. lia. Qed.

(** With enough fuel, [str_digits] writes the decimal digits of [n]: they
    are digits, they denote [n], and there are no more of them than the
    size of [n] needs. *)
Lemma str_digits_spec (fuel : nat) :
  forall n acc, (1 <= fuel)%nat -> 0 <= n < 10 ^ Z.of_nat fuel ->
  exists ds,
    Py.str_digits fuel n acc = ds +:+ acc /\
    Py.all_digits ds = true /\
    (forall a, Py.int_of_digits a ds = a * 10 ^ Z.of_nat (String.length ds) + n) /\
    (forall k, (1 <= k)%nat -> n < 10 ^ Z.of_nat k -> (String.length ds <= k)%nat).
Proof.
  induction fuel as [|fuel IH]; intros n acc Hfuel Hn; [lia |].
  assert (Hm : 0 <= n mod 10 <= 9) by (pose proof (Z.mod_pos_bound n 10); lia).
  rewrite str_digits_S.
  destruct (Z.ltb_spec n 10) as [Hlt|Hge].
  - exists (String (Py.digit_char (n mod 10)) "").
    split; [reflexivity |]. split; [| split].
    + rewrite all_digits_cons, digit_char_is_digit by assumption. reflexivity.
    + intros a. rewrite int_of_digits_cons, digit_char_value by assumption.
      rewrite Z.mod_small by lia.
      change (Py.int_of_digits ?x "") with x.
      change (String.length (String ?c "")) with 1%nat.
      change (Z.of_nat 1) with 1. rewrite Z.pow_1_r. lia.
    + intros k Hk _. change (String.length (String ?c "")) with 1%nat. exact Hk.
  - assert (Hq : 0 <= n / 10 < 10 ^ Z.of_nat fuel).
    { split; [apply Z.div_pos; lia |].
      apply Z.div_lt_upper_bound; [lia |].
      rewrite Nat2Z.inj_succ, Z.pow_succ_r in Hn by lia. lia. }
    assert (Hf : (1 <= fuel)%nat).
    { destruct fuel; [| lia]. change (10 ^ Z.of_nat 0) with 1 in Hq.
      pose proof (Z.div_le_lower_bound n 10 1). lia. }
    destruct (IH (n / 10) (String (Py.digit_char (n mod 10)) acc) Hf Hq)
      as (ds & Heq & Hall & Hval & Hlen).
    exists (ds +:+ String (Py.digit_char (n mod 10)) "").
    split; [| split; [| split]].
    + rewrite Heq, append_assoc. reflexivity.
    + rewrite all_digits_append, Hall, all_digits_cons.
      now rewrite digit_char_is_digit.
    + intros a. rewrite int_of_digits_append, Hval, int_of_digits_cons.
      rewrite digit_char_value by assumption.
      change (Py.int_of_digits ?x "") with x.
      rewrite length_append.
      change (String.length (String ?c "")) with 1%nat.
      rewrite Nat2Z.inj_add, Z.pow_add_r by lia.
      change (Z.of_nat 1) with 1. rewrite Z.pow_1_r.
      pose proof (Z.div_mod n 10). lia.
    + intros k Hk Hnk. rewrite length_append.
      change (String.length (String ?c "")) with 1%nat.
      destruct k as [|[|k]]; [lia | change (10 ^ Z.of_nat 1) with 10 in Hnk; lia |].
      assert (String.length ds <= S k)%nat; [| lia].
      apply Hlen; [lia |].
      apply Z.div_lt_upper_bound; [lia |].
      rewrite (Nat2Z.inj_succ (S k)), Z.pow_succ_r in Hnk by lia. lia.
Qed.

(** The fuel of [str_nonneg] is enough. *)
Lemma str_nonneg_fuel (n : Z) :
  0 <= n -> n < 10 ^ Z.of_nat (S (Z.to_nat (Z.log2 n))).
Proof.
  intros Hn. rewrite Nat2Z.inj_succ, Z2Nat.id by apply Z.log2_nonneg.
  destruct (Z.eq_dec n 0) as [->|Hne]; [reflexivity |].
  apply Z.lt_le_trans with (2 ^ Z.succ (Z.log2 n)).
  - apply Z.log2_spec. lia.
  - apply Z.pow_le_mono_l. pose proof (Z.log2_nonneg n). lia.
Qed.

Lemma str_nonneg_spec (n : Z) :
  0 <= n ->
  Py.all_digits (Py.str_nonneg n) = true /\
  Py.int_of_digits 0 (Py.str_nonneg n) = n /\
  (forall k, (1 <= k)%nat -> n < 10 ^ Z.of_nat k ->
             (String.length (Py.str_nonneg n) <= k)%nat).
Proof.
  intros Hn. unfold Py.str_nonneg.
  destruct (str_digits_spec (S (Z.to_nat (Z.log2 n))) n "" (le_n_S _ _ (Nat.le_0_l _))
              (conj Hn (str_nonneg_fuel n Hn)))
    as (ds & Heq & Hall & Hval & Hlen).
  rewrite Heq, append_nil_r. repeat split; [assumption | | assumption].
  rewrite Hval. lia.
Qed.

Lemma zeros_spec (k : nat) :
  String.length (Py.zeros k) = k /\ Py.all_digits (Py.zeros k) = true /\
  forall s, Py.int_of_digits 0 (Py.zeros k +:+ s) = Py.int_of_digits 0 s.
Proof.
  induction k as [|k (Hl & Ha & Hv)]; [repeat split |].
  split; [simpl; now rewrite Hl |]. split; [exact Ha |].
  intros s. change (Py.zeros (S k)) with (String "0" (Py.zeros k)).
  rewrite append_cons, int_of_digits_cons. apply Hv.
Qed.

Lemma zero_pad_spec (width : nat) (ds : string) :
  (String.length ds <= width)%nat -> Py.all_digits ds = true ->
  String.length (Py.zero_pad width ds) = width /\
  Py.all_digits (Py.zero_pad width ds) = true /\
  Py.int_of_digits 0 (Py.zero_pad width ds) = Py.int_of_digits 0 ds.
Proof.
  intros Hlen Hall. unfold Py.zero_pad.
  destruct (zeros_spec (width - String.length ds)) as (Hl & Ha & Hv).
  rewrite length_append, all_digits_append, Hl, Ha, Hall, Hv.
  repeat split. lia.
Qed.

(** [f"{n:06d}"] of a number of at most six digits: six digits, and they
    denote [n]. *)
Lemma format_06d_spec (n : Z) :
  0 <= n <= 999999 ->
  String.length (Py.format_06d n) = 6%nat /\
  Py.all_digits (Py.format_06d n) = true /\
  Py.int_of_digits 0 (Py.format_06d n) = n.
Proof.
  intros Hn. unfold Py.format_06d.
  destruct (Z.ltb_spec n 0) as [Hneg|_]; [lia |].
  destruct (str_nonneg_spec n (proj1 Hn)) as (Hall & Hval & Hlen).
  destruct (zero_pad_spec 6 (Py.str_nonneg n)) as (Hl & Ha & Hv).
  - apply Hlen; [lia |]. change (10 ^ Z.of_nat 6) with 1000000. lia.
  - exact Hall.
  - rewrite Hl, Ha, Hv, Hval. repeat split.
Qed.

(** Different numbers in range get different codes. *)
Lemma format_06d_inj (n m : Z) :
  0 <= n <= 999999 -> 0 <= m <= 999999 ->
  Py.format_06d n = Py.format_06d m -> n = m.
Proof.
  intros Hn Hm Heq.
  destruct (format_06d_spec n Hn) as (_ & _ & <-).
  destruct (format_06d_spec m Hm) as (_ & _ & <-).
  now rewrite Heq.
Qed.

(** ** The handlers, case by case *)

Lemma truthy_nonempty (s : string) : Py.truthy s = true <-> s <> "".
Proof. destruct s; simpl; split; congruence. Qed.

Lemma str_ne_false (s t : string) : Py.str_ne s t = false <-> s = t.
Proof.
  unfold Py.str_ne. rewrite negb_false_iff. apply String.eqb_eq.
Qed.

Lemma str_ne_true (s t : string) : Py.str_ne s t = true <-> s <> t.
Proof.
  unfold Py.str_ne. rewrite negb_true_iff. apply String.eqb_neq.
Qed.

Ltac run_handler :=
  unfold send_otp, verify_otp, bind, ret, raise, random_randint, time_time,
    httpx_post, otp_store_get, otp_store_set, otp_store_del; simpl.

Section Cases.

Variables TWILIO_ACCOUNT TWILIO_TOKEN TWILIO_FROM : option string.

Abbreviation issue := (send_otp TWILIO_ACCOUNT TWILIO_TOKEN TWILIO_FROM).

Implicit Types (s : gmap string (string * float)) (w : World).
Implicit Types (phone code : string) (expiry : float).

Lemma send_otp_empty w s :
  issue {| OTPRequest.phone := "" |} w s = (inl InvalidRequest, s, []).
Proof. reflexivity. Qed.

(** Whatever becomes of the delivery, a non-empty phone gets its challenge. *)
Lemma send_otp_store phone w s :
  phone <> "" ->
  (issue {| OTPRequest.phone := phone |} w s).1.2 = <[phone := challenge w]> s.
Proof.
  intros Hp. apply truthy_nonempty in Hp. run_handler. rewrite Hp. simpl.
  destruct (Py.truthy_opt TWILIO_ACCOUNT && Py.truthy_opt TWILIO_TOKEN
            && Py.truthy_opt TWILIO_FROM); simpl; [| reflexivity].
  destruct (w_post w _ _ _); reflexivity.
Qed.

(** Testing mode: no provider, the code comes back in the response and
    nothing is posted. *)
Lemma send_otp_testing_mode phone w s :
  phone <> "" ->
  twilio_configured TWILIO_ACCOUNT TWILIO_TOKEN TWILIO_FROM = false ->
  issue {| OTPRequest.phone := phone |} w s
  = (inr [("sent", JBool true); ("code", JStr (challenge w).1)],
     <[phone := challenge w]> s,
     [RandomRandint 0 999999; TimeTime]).
Proof.
  intros Hp Hc. apply truthy_nonempty in Hp. unfold twilio_configured in Hc.
  run_handler. rewrite Hp. simpl. rewrite Hc. reflexivity.
Qed.

(** With a provider configured, the code is posted to it; the response
    carries no code, and an exception of the [try] block becomes a 500. *)
Lemma send_otp_configured phone w s :
  phone <> "" ->
  twilio_configured TWILIO_ACCOUNT TWILIO_TOKEN TWILIO_FROM = true ->
  let url := "https://api.twilio.com/2010-04-01/Accounts/"
             +:+ env_str TWILIO_ACCOUNT +:+ "/Messages.json" in
  let data := [("To", phone); ("From", env_str TWILIO_FROM);
               ("Body", "Your SkinPilot OTP is " +:+ (challenge w).1)] in
  let auth := (env_str TWILIO_ACCOUNT, env_str TWILIO_TOKEN) in
  issue {| OTPRequest.phone := phone |} w s
  = (match w_post w url data auth with
     | Some e => inl (HTTPException 500 ("Twilio send error: " +:+ e))
     | None => inr [("sent", JBool true)]
     end,
     <[phone := challenge w]> s,
     [RandomRandint 0 999999; TimeTime; HttpxPost url data auth]).
Proof.
  intros Hp Hc url data auth. apply truthy_nonempty in Hp.
  unfold twilio_configured in Hc.
  run_handler. rewrite Hp. simpl. rewrite Hc. simpl.
  fold url. change (w_post w url _ _) with (w_post w url data auth).
  destruct (w_post w url data auth); reflexivity.
Qed.

(** A failed delivery is a server error whose detail is the text of the
    exception behind a fixed prefix; the challenge is stored all the same. *)
Lemma send_otp_delivery_failed phone w s r s1 t :
  phone <> "" ->
  twilio_configured TWILIO_ACCOUNT TWILIO_TOKEN TWILIO_FROM = true ->
  issue {| OTPRequest.phone := phone |} w s = (inl r, s1, t) ->
  server_error r = true /\
  (exists e, r = HTTPException 500 ("Twilio send error: " +:+ e)) /\
  s1 !! phone = Some (challenge w).
Proof.
  intros Hp Hc. rewrite (send_otp_configured phone w s Hp Hc). cbv zeta.
  destruct (w_post w _ _ _) as [e|]; [| discriminate].
  intros [= <- <- <-]. split; [reflexivity |]. split; [now exists e |].
  apply lookup_insert_eq.
Qed.

(** A request that is answered without an error had a non-empty phone. *)
Lemma send_otp_ok_nonempty req w s r s' t :
  issue req w s = (inr r, s', t) -> OTPRequest.phone req <> "".
Proof.
  destruct req as [phone]. simpl. intros H ->. rewrite send_otp_empty in H.
  discriminate.
Qed.

Lemma verify_otp_absent phone code w s :
  s !! phone = None ->
  verify_otp {| OTPVerifyRequest.phone := phone; OTPVerifyRequest.code := code |} w s
  = (inl NoChallenge, s, []).
Proof. intros H. run_handler. rewrite H. reflexivity. Qed.

Lemma verify_otp_expired phone code saved_code expiry w s :
  s !! phone = Some (saved_code, expiry) ->
  (expiry <? w_time w)%float = true ->
  verify_otp {| OTPVerifyRequest.phone := phone; OTPVerifyRequest.code := code |} w s
  = (inl Expired, delete phone s, [TimeTime]).
Proof. intros H Ht. run_handler. rewrite H. simpl. rewrite Ht. reflexivity. Qed.

Lemma verify_otp_mismatch phone code saved_code expiry w s :
  s !! phone = Some (saved_code, expiry) ->
  (expiry <? w_time w)%float = false ->
  code <> saved_code ->
  verify_otp {| OTPVerifyRequest.phone := phone; OTPVerifyRequest.code := code |} w s
  = (inl Mismatch, s, [TimeTime]).
Proof.
  intros H Ht Hc. apply str_ne_true in Hc. run_handler.
  rewrite H. simpl. rewrite Ht, Hc. reflexivity.
Qed.

Lemma verify_otp_match phone saved_code expiry w s :
  s !! phone = Some (saved_code, expiry) ->
  (expiry <? w_time w)%float = false ->
  verify_otp {| OTPVerifyRequest.phone := phone;
                OTPVerifyRequest.code := saved_code |} w s
  = (inr verified, delete phone s, [TimeTime]).
Proof.
  intros H Ht. run_handler. rewrite H. simpl. rewrite Ht.
  rewrite (proj2 (str_ne_false saved_code saved_code) eq_refl). reflexivity.
Qed.

(** [verify_otp] never adds a key. *)
Lemma verify_otp_lookup_None req w s k :
  s !! k = None -> (verify_otp req w s).1.2 !! k = None.
Proof.
  intros Hk. destruct req as [phone code]. run_handler.
  destruct (s !! phone) as [[saved_code expiry]|] eqn:Hs; simpl; [| exact Hk].
  destruct (expiry <? w_time w)%float; simpl.
  - apply lookup_delete_None. now right.
  - destruct (Py.str_ne code saved_code); simpl; [exact Hk |].
    apply lookup_delete_None. now right.
Qed.

(** [send_otp] never adds the empty key. *)
Lemma send_otp_lookup_empty req w s :
  s !! "" = None -> (issue req w s).1.2 !! "" = None.
Proof.
  intros Hk. destruct req as [[|c phone]]; [rewrite send_otp_empty; exact Hk |].
  rewrite send_otp_store by discriminate.
  rewrite lookup_insert_ne by discriminate. exact Hk.
Qed.

End Cases.

(** ** The lifecycle of a passcode *)

Section Lifecycle.

Variables TWILIO_ACCOUNT TWILIO_TOKEN TWILIO_FROM : option string.

Abbreviation issue := (send_otp TWILIO_ACCOUNT TWILIO_TOKEN TWILIO_FROM).

Implicit Types (s : gmap string (string * float)) (w : World).
Implicit Types (phone code : string) (expiry : float).

(** C1. After [send_otp] has stored a challenge for [phone] (the store [s1] it
    leaves, whether or not the delivery went through), [verify_otp] with the
    stored code at a time that is not past the expiry returns
    [{'verified': True}] and deletes the entry; the same request made again
    right after, at any time, is refused with 'no otp for phone'. *)
Theorem issue_then_verify_once phone w0 w1 w2 s r s1 t :
  phone <> "" ->
  issue {| OTPRequest.phone := phone |} w0 s = (r, s1, t) ->
  ((w_time w0 + ttl) <? w_time w1)%float = false ->
  s1 !! phone = Some (Py.format_06d (w_randint w0), (w_time w0 + ttl)%float) /\
  verify_otp {| OTPVerifyRequest.phone := phone;
                OTPVerifyRequest.code := Py.format_06d (w_randint w0) |} w1 s1
  = (inr verified, delete phone s1, [TimeTime]) /\
  delete phone s1 !! phone = None /\
  verify_otp {| OTPVerifyRequest.phone := phone;
                OTPVerifyRequest.code := Py.format_06d (w_randint w0) |} w2
             (delete phone s1)
  = (inl NoChallenge, delete phone s1, []).
Proof.
  intros Hp Hissue Hnow.
  assert (Hs1 : s1 = <[phone := challenge w0]> s).
  { rewrite <- (send_otp_store TWILIO_ACCOUNT TWILIO_TOKEN TWILIO_FROM phone w0 s Hp).
    now rewrite Hissue. }
  assert (Hget : s1 !! phone = Some (challenge w0)).
  { rewrite Hs1. apply lookup_insert_eq. }
  split; [exact Hget |]. split; [| split].
  - exact (verify_otp_match phone _ _ w1 s1 Hget Hnow).
  - apply lookup_delete_eq.
  - apply verify_otp_absent, lookup_delete_eq.
Qed.

(** C2. While a challenge for [phone] is pending and not expired,
    [verify_otp] with a code other than the stored one is refused with
    'invalid code' and leaves the store as it was; the stored code, sent
    afterwards and before the expiry, is still accepted. *)
Theorem wrong_code_keeps_challenge phone code saved_code expiry w1 s :
  s !! phone = Some (saved_code, expiry) ->
  (expiry <? w_time w1)%float = false ->
  code <> saved_code ->
  verify_otp {| OTPVerifyRequest.phone := phone; OTPVerifyRequest.code := code |} w1 s
  = (inl Mismatch, s, [TimeTime]) /\
  s !! phone = Some (saved_code, expiry) /\
  forall w2, (expiry <? w_time w2)%float = false ->
    verify_otp {| OTPVerifyRequest.phone := phone;
                  OTPVerifyRequest.code := saved_code |} w2 s
    = (inr verified, delete phone s, [TimeTime]).
Proof.
  intros Hget Hnow Hne. split; [| split].
  - exact (verify_otp_mismatch phone code saved_code expiry w1 s Hget Hnow Hne).
  - exact Hget.
  - intros w2 Hnow2. exact (verify_otp_match phone saved_code expiry w2 s Hget Hnow2).
Qed.

(** C3. When the stored challenge of [phone] has an expiry strictly below the
    current time, [verify_otp] deletes the entry and is refused with
    'otp expired', whatever code was sent; any later [verify_otp] for [phone],
    the stored code included, is refused with 'no otp for phone'. *)
Theorem expired_challenge_is_reaped phone saved_code expiry w1 s :
  s !! phone = Some (saved_code, expiry) ->
  (expiry <? w_time w1)%float = true ->
  forall code,
    verify_otp {| OTPVerifyRequest.phone := phone; OTPVerifyRequest.code := code |} w1 s
    = (inl Expired, delete phone s, [TimeTime]) /\
    forall code' w2,
      verify_otp {| OTPVerifyRequest.phone := phone;
                    OTPVerifyRequest.code := code' |} w2 (delete phone s)
      = (inl NoChallenge, delete phone s, []).
Proof.
  intros Hget Hnow code. split.
  - exact (verify_otp_expired phone code saved_code expiry w1 s Hget Hnow).
  - intros code' w2. apply verify_otp_absent, lookup_delete_eq.
Qed.

(** C6. For a [phone] with no entry in the store, [verify_otp] is refused
    with 'no otp for phone', leaves the store as it is and does not even read
    the clock. *)
Theorem verify_without_challenge phone code w s :
  s !! phone = None ->
  verify_otp {| OTPVerifyRequest.phone := phone; OTPVerifyRequest.code := code |} w s
  = (inl NoChallenge, s, []).
Proof. apply verify_otp_absent. Qed.

(** C7. For every integer [n] of [[0, 999999]], [f"{n:06d}"] matches
    [^[0-9]{6}$] and its six digits, leading zeros included, denote [n]; this
    is the code [send_otp] stores when [random.randint] draws [n]. *)
Theorem generated_code_six_digits (n : Z) :
  0 <= n <= 999999 ->
  Py.six_digits (Py.format_06d n) = true /\
  Py.int_of_digits 0 (Py.format_06d n) = n /\
  forall phone now post s, phone <> "" ->
    exists expiry,
      (issue {| OTPRequest.phone := phone |}
             {| w_randint := n; w_time := now; w_post := post |} s).1.2 !! phone
      = Some (Py.format_06d n, expiry).
Proof.
  intros Hn. destruct (format_06d_spec n Hn) as (Hlen & Hall & Hval).
  split; [| split; [exact Hval |]].
  - unfold Py.six_digits. rewrite Hlen, Hall. reflexivity.
  - intros phone now post s Hp. eexists.
    rewrite send_otp_store by exact Hp. apply lookup_insert_eq.
Qed.

(** C8. When [send_otp] answers without an error at time [t], the expiry it
    has stored for the phone is [t + 300]: the time to live is the constant
    [5*60], the same for every request. *)
Theorem issue_expiry_is_ttl req w s r s1 t :
  issue req w s = (inr r, s1, t) ->
  s1 !! OTPRequest.phone req
  = Some (Py.format_06d (w_randint w), (w_time w + 300)%float).
Proof.
  intros Hissue.
  pose proof (send_otp_ok_nonempty _ _ _ _ _ _ _ _ _ Hissue) as Hp.
  destruct req as [phone]. simpl in *.
  pose proof (send_otp_store TWILIO_ACCOUNT TWILIO_TOKEN TWILIO_FROM phone w s Hp) as Hs.
  rewrite Hissue in Hs. simpl in Hs. subst s1.
  rewrite lookup_insert_eq. reflexivity.
Qed.

(** C9. [send_otp] with an empty phone raises the 400 'phone required'
    before anything else: the store is unchanged, and neither the random
    generator, nor the clock, nor the provider has been called. *)
Theorem issue_empty_identity_rejected w s :
  issue {| OTPRequest.phone := "" |} w s = (inl InvalidRequest, s, []) /\
  client_error InvalidRequest = true.
Proof. split; [apply send_otp_empty | reflexivity]. Qed.

(** Each request keeps the empty string out of the store. *)
Lemma handle_lookup_empty s (r : request) :
  s !! "" = None ->
  (handle TWILIO_ACCOUNT TWILIO_TOKEN TWILIO_FROM s r).1.2 !! "" = None.
Proof.
  intros Hs. destruct r as [req w|req w]; simpl.
  - now apply send_otp_lookup_empty.
  - now apply verify_otp_lookup_None.
Qed.

Lemma serve_lookup_empty (rs : list request) : forall s,
  s !! "" = None ->
  serve TWILIO_ACCOUNT TWILIO_TOKEN TWILIO_FROM s rs !! "" = None.
Proof.
  induction rs as [|r rs IH]; intros s Hs; [exact Hs |].
  simpl. apply IH. now apply handle_lookup_empty.
Qed.

(** C10. Starting from the empty [otp_store], after any sequence of
    [send_otp] and [verify_otp] requests, in any worlds, no entry of the store
    is keyed by the empty string: every key present is a non-empty phone. *)
Theorem store_never_keyed_by_empty (rs : list request) :
  serve TWILIO_ACCOUNT TWILIO_TOKEN TWILIO_FROM otp_store rs !! "" = None /\
  forall k, is_Some (serve TWILIO_ACCOUNT TWILIO_TOKEN TWILIO_FROM otp_store rs !! k) ->
            k <> "".
Proof.
  assert (H : serve TWILIO_ACCOUNT TWILIO_TOKEN TWILIO_FROM otp_store rs !! "" = None).
  { apply serve_lookup_empty. apply lookup_empty. }
  split; [exact H |].
  intros k [v Hk] ->. rewrite H in Hk. discriminate.
Qed.

End Lifecycle.

(** C5, as amended. Two [send_otp] in a row for the same phone leave the second
    challenge only. Before its expiry, the first code is refused with
    'invalid code' provided it differs from the second code, and the second
    code is accepted. *)
Theorem reissue_overwrites account token from phone w1 w2 s r1 s1 t1 r2 s2 t2 :
  phone <> "" ->
  send_otp account token from {| OTPRequest.phone := phone |} w1 s = (r1, s1, t1) ->
  send_otp account token from {| OTPRequest.phone := phone |} w2 s1 = (r2, s2, t2) ->
  s2 !! phone = Some (Py.format_06d (w_randint w2), (w_time w2 + ttl)%float) /\
  (forall w,
     Py.format_06d (w_randint w1) <> Py.format_06d (w_randint w2) ->
     ((w_time w2 + ttl) <? w_time w)%float = false ->
     verify_otp {| OTPVerifyRequest.phone := phone;
                   OTPVerifyRequest.code := Py.format_06d (w_randint w1) |} w s2
     = (inl Mismatch, s2, [TimeTime])) /\
  (forall w,
     ((w_time w2 + ttl) <? w_time w)%float = false ->
     verify_otp {| OTPVerifyRequest.phone := phone;
                   OTPVerifyRequest.code := Py.format_06d (w_randint w2) |} w s2
     = (inr verified, delete phone s2, [TimeTime])).
Proof.
  intros Hp Hi1 Hi2.
  assert (Hget : s2 !! phone = Some (challenge w2)).
  { pose proof (send_otp_store account token from phone w2 s1 Hp) as Hs.
    rewrite Hi2 in Hs. simpl in Hs. subst s2. apply lookup_insert_eq. }
  split; [exact Hget |]. split.
  - intros w Hne Hnow. exact (verify_otp_mismatch phone _ _ _ w s2 Hget Hnow Hne).
  - intros w Hnow. exact (verify_otp_match phone _ _ w s2 Hget Hnow).
Qed.

(** C5 as it is written fails when [random.randint] draws the same number
    twice: after two [send_otp] for [alice] that both draw [42017], the first
    code is the stored code and [verify_otp] accepts it. *)
Lemma reissue_same_draw_first_code_verifies :
  (verify_otp
     {| OTPVerifyRequest.phone := alice;
        OTPVerifyRequest.code := Py.format_06d (w_randint (world_at 42017 1000)) |}
     (world_at 0 1002)
     (send_otp None None None {| OTPRequest.phone := alice |} (world_at 42017 1001)
        (send_otp None None None {| OTPRequest.phone := alice |} (world_at 42017 1000)
           otp_store).1.2).1.2).1.1
  = inr verified
  /\ inr verified <> (inl Mismatch : exn + response).
Proof. split; [reflexivity | discriminate]. Qed.

(** C4. With a provider configured that answers 401, [send_otp] raises a 500
    whose detail names the provider and repeats the text of the exception,
    here with the URL of the request and the account identifier in it; the
    challenge stays in the store. *)
Theorem delivery_failure_detail_repeats_exception :
  send_otp (Some "AC0123456789") (Some "auth-token") (Some "+15550100")
    {| OTPRequest.phone := alice |}
    {| w_randint := 42017; w_time := 1000; w_post := unauthorized |} otp_store
  = (inl (HTTPException 500
       "Twilio send error: Client error '401 Unauthorized' for url 'https://api.twilio.com/2010-04-01/Accounts/AC0123456789/Messages.json'"),
     pending_alice,
     [RandomRandint 0 999999; TimeTime;
      HttpxPost "https://api.twilio.com/2010-04-01/Accounts/AC0123456789/Messages.json"
        [("To", alice); ("From", "+15550100");
         ("Body", "Your SkinPilot OTP is 042017")]
        ("AC0123456789", "auth-token")]).
Proof. reflexivity. Qed.

(** ** The theorems at work *)

(** Issue for [alice] at time 1000 draws 42017; verify at 1010, then again. *)
Lemma issue_then_verify_once_witness :
  pending_alice !! alice = Some ("042017", 1300%float) /\
  verify_otp {| OTPVerifyRequest.phone := alice; OTPVerifyRequest.code := "042017" |}
    (world_at 0 1010) pending_alice
  = (inr verified, delete alice pending_alice, [TimeTime]) /\
  delete alice pending_alice !! alice = None /\
  verify_otp {| OTPVerifyRequest.phone := alice; OTPVerifyRequest.code := "042017" |}
    (world_at 0 1010) (delete alice pending_alice)
  = (inl NoChallenge, delete alice pending_alice, []).
Proof.
  apply (issue_then_verify_once None None None alice
           (world_at 42017 1000) (world_at 0 1010) (world_at 0 1010) otp_store
           (inr [("sent", JBool true); ("code", JStr "042017")])
           pending_alice [RandomRandint 0 999999; TimeTime]).
  - discriminate.
  - reflexivity.
  - reflexivity.
Defined.

(** A wrong code at 1010, the right one at 1020. *)
Lemma wrong_code_keeps_challenge_witness :
  verify_otp {| OTPVerifyRequest.phone := alice; OTPVerifyRequest.code := "000000" |}
    (world_at 0 1010) pending_alice
  = (inl Mismatch, pending_alice, [TimeTime]) /\
  verify_otp {| OTPVerifyRequest.phone := alice; OTPVerifyRequest.code := "042017" |}
    (world_at 0 1020) pending_alice
  = (inr verified, delete alice pending_alice, [TimeTime]).
Proof.
  destruct (wrong_code_keeps_challenge alice "000000" "042017" 1300%float
              (world_at 0 1010) pending_alice)
    as (Hwrong & _ & Hright).
  - reflexivity.
  - reflexivity.
  - discriminate.
  - split; [exact Hwrong |]. apply Hright. reflexivity.
Defined.

(** One second past the expiry, with the right code. *)
Lemma expired_challenge_is_reaped_witness :
  verify_otp {| OTPVerifyRequest.phone := alice; OTPVerifyRequest.code := "042017" |}
    (world_at 0 1301) pending_alice
  = (inl Expired, delete alice pending_alice, [TimeTime]) /\
  verify_otp {| OTPVerifyRequest.phone := alice; OTPVerifyRequest.code := "042017" |}
    (world_at 0 1302) (delete alice pending_alice)
  = (inl NoChallenge, delete alice pending_alice, []).
Proof.
  destruct (expired_challenge_is_reaped alice "042017" 1300%float
              (world_at 0 1301) pending_alice) with (code := "042017")
    as (Hexp & Hgone).
  - reflexivity.
  - reflexivity.
  - split; [exact Hexp | apply Hgone].
Defined.

(** [bob] has no challenge while [alice] has one. *)
Lemma verify_without_challenge_witness :
  verify_otp {| OTPVerifyRequest.phone := bob; OTPVerifyRequest.code := "042017" |}
    (world_at 0 1010) pending_alice
  = (inl NoChallenge, pending_alice, []).
Proof. apply verify_without_challenge. reflexivity. Defined.

Lemma generated_code_six_digits_witness :
  Py.six_digits (Py.format_06d 42017) = true /\
  Py.int_of_digits 0 (Py.format_06d 42017) = 42017 /\
  exists expiry,
    (send_otp None None None {| OTPRequest.phone := alice |}
       {| w_randint := 42017; w_time := 1000; w_post := unauthorized |}
       otp_store).1.2 !! alice
    = Some (Py.format_06d 42017, expiry).
Proof.
  destruct (generated_code_six_digits None None None 42017) as (Hsix & Hval & Hstored).
  - lia.
  - split; [exact Hsix |]. split; [exact Hval |].
    apply Hstored. discriminate.
Defined.

Lemma issue_expiry_is_ttl_witness :
  pending_alice !! alice = Some (Py.format_06d 42017, (1000 + 300)%float).
Proof.
  apply (issue_expiry_is_ttl None None None {| OTPRequest.phone := alice |}
           (world_at 42017 1000) otp_store
           [("sent", JBool true); ("code", JStr "042017")]
           pending_alice [RandomRandint 0 999999; TimeTime]).
  reflexivity.
Defined.

(** An empty phone, [alice], a failed and a successful verification. *)
Lemma store_never_keyed_by_empty_witness :
  serve None None None otp_store
    [SendOtp {| OTPRequest.phone := "" |} (world_at 7 1000);
     SendOtp {| OTPRequest.phone := alice |} (world_at 42017 1000);
     VerifyOtp {| OTPVerifyRequest.phone := ""; OTPVerifyRequest.code := "000007" |}
       (world_at 0 1005);
     VerifyOtp {| OTPVerifyRequest.phone := alice; OTPVerifyRequest.code := "000000" |}
       (world_at 0 1010)] !! "" = None
  /\ alice <> "".
Proof.
  destruct (store_never_keyed_by_empty None None None
    [SendOtp {| OTPRequest.phone := "" |} (world_at 7 1000);
     SendOtp {| OTPRequest.phone := alice |} (world_at 42017 1000);
     VerifyOtp {| OTPVerifyRequest.phone := ""; OTPVerifyRequest.code := "000007" |}
       (world_at 0 1005);
     VerifyOtp {| OTPVerifyRequest.phone := alice; OTPVerifyRequest.code := "000000" |}
       (world_at 0 1010)]) as (Hempty & Hkeys).
  split; [exact Hempty |]. apply Hkeys. exists ("042017", 1300%float). reflexivity.
Defined.

(** Two issues for [alice] that draw 42017 and then 7. *)
Lemma reissue_overwrites_witness :
  verify_otp {| OTPVerifyRequest.phone := alice; OTPVerifyRequest.code := "042017" |}
    (world_at 0 1010) (<[alice := ("000007", 1301%float)]> pending_alice)
  = (inl Mismatch, <[alice := ("000007", 1301%float)]> pending_alice, [TimeTime]) /\
  verify_otp {| OTPVerifyRequest.phone := alice; OTPVerifyRequest.code := "000007" |}
    (world_at 0 1010) (<[alice := ("000007", 1301%float)]> pending_alice)
  = (inr verified, delete alice (<[alice := ("000007", 1301%float)]> pending_alice),
     [TimeTime]).
Proof.
  destruct (reissue_overwrites None None None alice
              (world_at 42017 1000) (world_at 7 1001) otp_store
              (inr [("sent", JBool true); ("code", JStr "042017")])
              pending_alice [RandomRandint 0 999999; TimeTime]
              (inr [("sent", JBool true); ("code", JStr "000007")])
              (<[alice := ("000007", 1301%float)]> pending_alice)
              [RandomRandint 0 999999; TimeTime])
    as (_ & Hfirst & Hsecond).
  - discriminate.
  - reflexivity.
  - reflexivity.
  - split; [apply Hfirst; [discriminate | reflexivity] | apply Hsecond; reflexivity].
Defined.

(** ** The store under sequences of requests *)

Section Store.

Variables TWILIO_ACCOUNT TWILIO_TOKEN TWILIO_FROM : option string.

Abbreviation issue := (send_otp TWILIO_ACCOUNT TWILIO_TOKEN TWILIO_FROM).
Abbreviation handle' := (handle TWILIO_ACCOUNT TWILIO_TOKEN TWILIO_FROM).
Abbreviation serve' := (serve TWILIO_ACCOUNT TWILIO_TOKEN TWILIO_FROM).

Implicit Types (s : gmap string (string * float)) (w : World) (r : request).
Implicit Types (phone code q : string) (expiry : float).

(** What [send_otp] does to the store: nothing, or one entry written. *)
Lemma send_otp_store_cases req w s :
  (OTPRequest.phone req = "" /\ (issue req w s).1.2 = s) \/
  (OTPRequest.phone req <> "" /\
   (issue req w s).1.2 = <[OTPRequest.phone req := challenge w]> s).
Proof.
  destruct req as [[|c phone]]; [left | right]; (split; [easy |]).
  - now rewrite send_otp_empty.
  - apply send_otp_store. discriminate.
Qed.

(** What [verify_otp] does to the store and outside: it raises with the
    store as it was, or deletes the entry of its phone; it reads the clock
    when an entry was found, and calls nothing else. *)
Lemma verify_otp_cases req w s :
  ((verify_otp req w s).1.2 = s \/
   (verify_otp req w s).1.2 = delete (OTPVerifyRequest.phone req) s) /\
  ((verify_otp req w s).2 = [] \/ (verify_otp req w s).2 = [TimeTime]).
Proof.
  destruct req as [phone code]. run_handler.
  destruct (s !! phone) as [[saved_code expiry]|]; simpl; [| now split; left].
  destruct (expiry <? w_time w)%float; simpl; [now split; right |].
  destruct (Py.str_ne code saved_code); simpl; split; auto.
Qed.

Lemma handle_lookup_ne r s q :
  request_phone r <> q -> (handle' s r).1.2 !! q = s !! q.
Proof.
  intros Hq. destruct r as [req w|req w]; simpl in *.
  - destruct (send_otp_store_cases req w s) as [[_ ->]|[_ ->]]; [reflexivity |].
    now apply lookup_insert_ne.
  - destruct (verify_otp_cases req w s) as [[-> | ->] _]; [reflexivity |].
    now apply lookup_delete_ne.
Qed.

Lemma serve_cons s r (rs : list request) :
  serve' s (r :: rs) = serve' ((handle' s r).1.2) rs.
Proof. reflexivity. Qed.


(** X2. [verify_otp] only ever removes: the store it leaves is the store it found
    or that store without the entry of its phone, a submap in both cases; and
    it calls neither the random generator nor the provider. *)
Theorem verify_otp_only_removes req w s :
  (verify_otp req w s).1.2 ⊆ s /\
  ((verify_otp req w s).1.2 = s \/
   (verify_otp req w s).1.2 = delete (OTPVerifyRequest.phone req) s) /\
  ((verify_otp req w s).2 = [] \/ (verify_otp req w s).2 = [TimeTime]).
Proof.
  destruct (verify_otp_cases req w s) as [Hs Ht]. split; [| split; assumption].
  destruct Hs as [-> | ->]; [reflexivity | apply delete_subseteq].
Qed.

Lemma handle_size r s :
  (size (handle' s r).1.2 <= (if is_send_otp r then 1 else 0) + size s)%nat.
Proof.
  destruct r as [req w|req w]; simpl.
  - destruct (send_otp_store_cases req w s) as [[_ ->]|[_ ->]]; [lia |].
    rewrite map_size_insert. destruct (s !! _); simpl; lia.
  - destruct (verify_otp_cases req w s) as [[-> | ->] _]; [lia |].
    rewrite map_size_delete. destruct (s !! _); simpl; lia.
Qed.

Lemma serve_size (rs : list request) : forall s,
  (size (serve' s rs) <= length (filter is_send_otp rs) + size s)%nat.
Proof.
  induction rs as [|r rs IH]; intros s; [simpl; lia |].
  rewrite serve_cons. etransitivity; [apply IH |].
  pose proof (handle_size r s) as Hr.
  rewrite filter_cons. destruct r; simpl in *; lia.
Qed.

(** X3. The store never holds more entries than [send_otp] requests were made:
    each writes at most one entry, and [verify_otp] writes none. *)
Theorem store_size_bounded_by_issues (rs : list request) :
  (size (serve' otp_store rs) <= length (filter is_send_otp rs))%nat.
Proof.
  pose proof (serve_size rs otp_store) as H.
  unfold otp_store in *. rewrite map_size_empty in H. lia.
Qed.

(** The codes of a store: all of six digits. *)
Lemma handle_six_digits r s :
  draw_in_range r ->
  (forall k c e, s !! k = Some (c, e) -> Py.six_digits c = true) ->
  forall k c e, (handle' s r).1.2 !! k = Some (c, e) -> Py.six_digits c = true.
Proof.
  intros Hr Hs k c e. destruct r as [req w|req w]; simpl in *.
  - destruct (send_otp_store_cases req w s) as [[_ ->]|[_ ->]]; [apply Hs |].
    rewrite lookup_insert. case_decide; [| apply Hs].
    intros [= <- _]. unfold Py.six_digits.
    destruct (format_06d_spec _ Hr) as (-> & -> & _). reflexivity.
  - destruct (verify_otp_cases req w s) as [[-> | ->] _]; [apply Hs |].
    rewrite lookup_delete. case_decide; [discriminate | apply Hs].
Qed.

(** X4. As long as [random.randint] answers within its bounds, every code held in
    the store, at any time, matches [^[0-9]{6}$]. *)
Theorem stored_codes_are_six_digits (rs : list request) k c e :
  Forall draw_in_range rs ->
  serve' otp_store rs !! k = Some (c, e) ->
  Py.six_digits c = true.
Proof.
  intros Hrs. revert k c e.
  assert (H : forall s,
    (forall k c e, s !! k = Some (c, e) -> Py.six_digits c = true) ->
    forall k c e, serve' s rs !! k = Some (c, e) -> Py.six_digits c = true).
  { induction Hrs as [|r rs Hr Hrs IH]; intros s Hs; [exact Hs |].
    rewrite serve_cons. apply IH. now apply handle_six_digits. }
  apply H. intros k c e Hk. unfold otp_store in Hk.
  rewrite lookup_empty in Hk. discriminate.
Qed.

(** X5. Wrong codes never use a challenge up: however many times [verify_otp] is
    sent codes other than the stored one before the expiry, each is refused
    with 'invalid code' and the store stays as it was; nothing counts the
    attempts. *)
Theorem wrong_codes_never_consume phone saved_code expiry
    (attempts : list (string * World)) s :
  s !! phone = Some (saved_code, expiry) ->
  Forall (fun a => a.1 <> saved_code /\ (expiry <? w_time a.2)%float = false)
         attempts ->
  serve' s (map (attempt phone) attempts) = s /\
  Forall (fun a => (handle' s (attempt phone a)).1.1 = inl Mismatch) attempts.
Proof.
  intros Hget Hall. induction Hall as [|[code w] attempts [Hne Hnow] Hall [IHs IHr]].
  - split; [reflexivity | constructor].
  - simpl in Hne, Hnow.
    pose proof (verify_otp_mismatch phone code saved_code expiry w s Hget Hnow Hne)
      as Hv.
    split.
    + rewrite map_cons, serve_cons. unfold attempt at 1. simpl.
      rewrite Hv. exact IHs.
    + constructor; [| exact IHr]. unfold attempt. simpl. now rewrite Hv.
Qed.

(** X6. A [verify_otp] with an empty phone is refused with 'no otp for phone'
    whatever happened before: no request can have stored a challenge for it. *)
Theorem verify_empty_phone_has_no_challenge (rs : list request) code w :
  verify_otp {| OTPVerifyRequest.phone := ""; OTPVerifyRequest.code := code |} w
    (serve' otp_store rs)
  = (inl NoChallenge, serve' otp_store rs, []).
Proof.
  apply verify_otp_absent, serve_lookup_empty. apply lookup_empty.
Qed.

End Store.

(** ** Expiry, delivery and the code returned in band *)

(** [x < x] is false for every float, the special values included. *)
Lemma float_ltb_irrefl (x : float) : (x <? x)%float = false.
Proof.
  rewrite FloatAxioms.ltb_spec. unfold SpecFloat.SFltb, SpecFloat.SFcompare.
  destruct (FloatOps.Prim2SF x) as [sg|sg| |sg m e]; try reflexivity.
  - destruct sg; reflexivity.
  - rewrite Z.compare_refl, Pos.compare_cont_refl. destruct sg; reflexivity.
Qed.

(** X7. The expiry instant itself is still in time: [time.time() > expiry] is
    strict, so [verify_otp] with the stored code at a time equal to the stored
    expiry is accepted. *)
Theorem verify_at_expiry_instant phone saved_code expiry w
    (s : gmap string (string * float)) :
  s !! phone = Some (saved_code, expiry) ->
  w_time w = expiry ->
  verify_otp {| OTPVerifyRequest.phone := phone;
                OTPVerifyRequest.code := saved_code |} w s
  = (inr verified, delete phone s, [TimeTime]).
Proof.
  intros Hget Hnow. apply (verify_otp_match phone saved_code expiry w s Hget).
  rewrite Hnow. apply float_ltb_irrefl.
Qed.

Lemma twilio_configured_spec (account token from : option string) :
  twilio_configured account token from = true <->
  exists a t f, account = Some a /\ token = Some t /\ from = Some f /\
                a <> "" /\ t <> "" /\ f <> "".
Proof.
  unfold twilio_configured. rewrite !andb_true_iff. split.
  - intros [[Ha Ht] Hf].
    destruct account as [a|], token as [t|], from as [f|]; try discriminate.
    exists a, t, f. simpl in *. rewrite <- !truthy_nonempty. repeat split; assumption.
  - intros (a & t & f & -> & -> & -> & Ha & Ht & Hf). simpl.
    rewrite !truthy_nonempty. repeat split; assumption.
Qed.


(** X9. Without the three credentials, [send_otp] posts nothing and returns the
    code in the response; that code, sent to [verify_otp] for the same phone
    at a time not past the expiry, is accepted. *)
Theorem testing_mode_code_verifies account token from phone w0 w1
    (s : gmap string (string * float)) r s1 t :
  twilio_configured account token from = false ->
  phone <> "" ->
  send_otp account token from {| OTPRequest.phone := phone |} w0 s = (r, s1, t) ->
  ((w_time w0 + ttl) <? w_time w1)%float = false ->
  exists code,
    r = inr [("sent", JBool true); ("code", JStr code)] /\
    t = [RandomRandint 0 999999; TimeTime] /\
    verify_otp {| OTPVerifyRequest.phone := phone; OTPVerifyRequest.code := code |}
      w1 s1
    = (inr verified, delete phone s1, [TimeTime]).
Proof.
  intros Hc Hp Hissue Hnow.
  rewrite (send_otp_testing_mode _ _ _ phone w0 s Hp Hc) in Hissue.
  injection Hissue as Hr Hs1 Htr. subst r s1 t.
  exists (challenge w0).1. split; [reflexivity |]. split; [reflexivity |].
  apply (verify_otp_match phone _ (challenge w0).2 w1); [| exact Hnow].
  apply lookup_insert_eq.
Qed.

(** X10. [send_otp] for a non-empty phone calls the provider exactly when the
    account, the token and the sender number are all three set and not
    empty; one of them missing or empty, and nothing is posted. *)
Theorem delivery_attempted_iff_credentials account token from phone w
    (s : gmap string (string * float)) :
  phone <> "" ->
  (exists url data auth,
     In (HttpxPost url data auth)
        (send_otp account token from {| OTPRequest.phone := phone |} w s).2)
  <->
  (exists a t f, account = Some a /\ token = Some t /\ from = Some f /\
                 a <> "" /\ t <> "" /\ f <> "").
Proof.
  intros Hp. rewrite <- twilio_configured_spec.
  destruct (twilio_configured account token from) eqn:Hc.
  - rewrite (send_otp_configured _ _ _ phone w s Hp Hc). cbv zeta.
    split; [reflexivity |]. intros _. do 3 eexists. simpl. eauto.
  - rewrite (send_otp_testing_mode _ _ _ phone w s Hp Hc).
    split; [| discriminate].
    intros (url & data & auth & Hin). simpl in Hin.
    destruct Hin as [H | [H | []]]; discriminate.
Qed.

(** ** The codes and the numbers drawn, one to one *)

Lemma is_digit_value (c : ascii) :
  Py.is_digit c = true -> 0 <= Z.of_nat (nat_of_ascii c) - 48 <= 9.
Proof.
  unfold Py.is_digit. intros H. apply andb_true_iff in H as [Hlo Hhi].
  apply Nat.leb_le in Hlo, Hhi. lia.
Qed.

(** The value of a string of digits: the accumulator shifted by its length,
    plus a number that fits in that many digits. *)
Lemma int_of_digits_bounds (s : string) : forall a,
  Py.all_digits s = true ->
  Py.int_of_digits a s
  = a * 10 ^ Z.of_nat (String.length s) + Py.int_of_digits 0 s /\
  0 <= Py.int_of_digits 0 s < 10 ^ Z.of_nat (String.length s).
Proof.
  induction s as [|c s IH]; intros a Hall.
  - change (Py.int_of_digits ?x "") with x.
    change (10 ^ Z.of_nat (String.length "")) with 1. lia.
  - rewrite all_digits_cons in Hall. apply andb_true_iff in Hall as [Hc Hall].
    apply is_digit_value in Hc.
    rewrite !int_of_digits_cons.
    destruct (IH (10 * a + (Z.of_nat (nat_of_ascii c) - 48)) Hall) as [-> _].
    destruct (IH (10 * 0 + (Z.of_nat (nat_of_ascii c) - 48)) Hall) as [-> Hb].
    change (String.length (String c s)) with (S (String.length s)).
    rewrite Nat2Z.inj_succ, Z.pow_succ_r by lia.
    set (p := 10 ^ Z.of_nat (String.length s)) in *.
    set (d := Z.of_nat (nat_of_ascii c) - 48) in *.
    split; [ring | nia].
Qed.

(** Two strings of digits of the same length that denote the same number are
    the same string. *)
Lemma int_of_digits_inj (s : string) : forall t,
  Py.all_digits s = true -> Py.all_digits t = true ->
  String.length s = String.length t ->
  Py.int_of_digits 0 s = Py.int_of_digits 0 t -> s = t.
Proof.
  induction s as [|c s IH]; intros [|c' t] Hs Ht Hlen Hval;
    try discriminate; [reflexivity |].
  rewrite all_digits_cons in Hs, Ht.
  apply andb_true_iff in Hs as [Hc Hs]. apply andb_true_iff in Ht as [Hc' Ht].
  injection Hlen as Hlen.
  rewrite !int_of_digits_cons in Hval.
  destruct (int_of_digits_bounds s (10 * 0 + (Z.of_nat (nat_of_ascii c) - 48)) Hs)
    as [Hv Hb].
  destruct (int_of_digits_bounds t (10 * 0 + (Z.of_nat (nat_of_ascii c') - 48)) Ht)
    as [Hv' Hb'].
  rewrite Hv, Hv', <- Hlen in Hval. rewrite <- Hlen in Hb'.
  apply is_digit_value in Hc, Hc'.
  set (p := 10 ^ Z.of_nat (String.length s)) in *.
  assert (Hd : Z.of_nat (nat_of_ascii c) = Z.of_nat (nat_of_ascii c')) by nia.
  assert (Hcc : c = c').
  { rewrite <- (ascii_nat_embedding c), <- (ascii_nat_embedding c').
    f_equal. lia. }
  subst c'. f_equal. apply IH; try assumption. nia.
Qed.

(** X11. Two draws of [random.randint(0, 999999)] get the same code only when
    they are the same number. *)
Theorem distinct_draws_distinct_codes (n m : Z) :
  0 <= n <= 999999 -> 0 <= m <= 999999 ->
  Py.format_06d n = Py.format_06d m <-> n = m.
Proof.
  intros Hn Hm. split; [| now intros ->]. intros Heq.
  destruct (format_06d_spec n Hn) as (_ & _ & <-).
  destruct (format_06d_spec m Hm) as (_ & _ & <-).
  now rewrite Heq.
Qed.

(** X12. Every string that matches [^[0-9]{6}$] is a code: it denotes a number of
    [[0, 999999]], and formatting that number gives the string back. *)
Theorem six_digit_string_is_a_code (s : string) :
  Py.six_digits s = true ->
  0 <= Py.int_of_digits 0 s <= 999999 /\
  Py.format_06d (Py.int_of_digits 0 s) = s.
Proof.
  unfold Py.six_digits. intros H. apply andb_true_iff in H as [Hlen Hall].
  apply Nat.eqb_eq in Hlen.
  destruct (int_of_digits_bounds s 0 Hall) as [_ Hb].
  rewrite Hlen in Hb. change (10 ^ Z.of_nat 6) with 1000000 in Hb.
  assert (Hn : 0 <= Py.int_of_digits 0 s <= 999999) by lia.
  split; [exact Hn |].
  destruct (format_06d_spec _ Hn) as (Hl & Ha & Hv).
  apply int_of_digits_inj; [exact Ha | exact Hall | congruence | exact Hv].
Qed.

(** ** The chat endpoint *)







(** ** Single use, provenance, and when a code is accepted *)

Section Replay.

Variables TWILIO_ACCOUNT TWILIO_TOKEN TWILIO_FROM : option string.

Abbreviation handle' := (handle TWILIO_ACCOUNT TWILIO_TOKEN TWILIO_FROM).
Abbreviation serve' := (serve TWILIO_ACCOUNT TWILIO_TOKEN TWILIO_FROM).
Abbreviation accepted' := (accepted TWILIO_ACCOUNT TWILIO_TOKEN TWILIO_FROM).

Implicit Types (s : gmap string (string * float)) (w : World) (r : request).

(** X15. [verify_otp] answers [{'verified': True}] exactly when the store holds,
    for the phone of the request, the very code of the request with an expiry
    that the clock has not passed; there is no other way in. *)
Theorem verify_otp_accepts_iff req w s :
  (verify_otp req w s).1.1 = inr verified <->
  exists expiry,
    s !! OTPVerifyRequest.phone req = Some (OTPVerifyRequest.code req, expiry) /\
    (expiry <? w_time w)%float = false.
Proof.
  destruct req as [phone code]. simpl. split.
  - run_handler.
    destruct (s !! phone) as [[saved_code expiry]|]; simpl; [| discriminate].
    destruct (expiry <? w_time w)%float eqn:Hnow; simpl; [discriminate |].
    destruct (Py.str_ne code saved_code) eqn:Hne; simpl; [discriminate |].
    intros _. apply str_ne_false in Hne as ->. now exists expiry.
  - intros (expiry & Hget & Hnow).
    now rewrite (verify_otp_match phone code expiry w s Hget Hnow).
Qed.

(** A [verify_otp] that returns has deleted the entry of its phone. *)
Lemma verify_otp_returned_deletes req w s :
  returned (verify_otp req w s).1.1 = true ->
  is_Some (s !! OTPVerifyRequest.phone req) /\
  (verify_otp req w s).1.2 = delete (OTPVerifyRequest.phone req) s.
Proof.
  destruct req as [phone code]. run_handler.
  destruct (s !! phone) as [[saved_code expiry]|]; simpl; [| discriminate].
  destruct (expiry <? w_time w)%float; simpl; [discriminate |].
  destruct (Py.str_ne code saved_code); simpl; [discriminate |].
  intros _. split; [eauto | reflexivity].
Qed.

Lemma length_filter_cons (P : request -> bool) r (rs : list request) :
  length (filter P (r :: rs)) = ((if P r then 1 else 0) + length (filter P rs))%nat.
Proof. rewrite filter_cons. destruct (P r); reflexivity. Qed.

Lemma accepted_bound q (rs : list request) : forall s,
  (accepted' q s rs
   <= (match s !! q with Some _ => 1 | None => 0 end)
      + length (filter (is_issue_of q) rs))%nat.
Proof.
  induction rs as [|r rs IH]; intros s; [simpl; lia |].
  change (accepted' q s (r :: rs))
    with ((if is_verify_of q r && returned (handle' s r).1.1 then 1 else 0)
          + accepted' q (handle' s r).1.2 rs)%nat.
  specialize (IH (handle' s r).1.2).
  rewrite length_filter_cons.
  destruct r as [req w|req w].
  - change (is_verify_of q (SendOtp req w)) with false.
    change (is_issue_of q (SendOtp req w)) with (String.eqb (OTPRequest.phone req) q).
    rewrite andb_false_l.
    destruct (String.eqb_spec (OTPRequest.phone req) q) as [Heq|Hne].
    + destruct ((handle' s (SendOtp req w)).1.2 !! q); destruct (s !! q); lia.
    + rewrite (handle_lookup_ne _ _ _ (SendOtp req w) s q Hne) in IH. lia.
  - change (is_issue_of q (VerifyOtp req w)) with false.
    change (is_verify_of q (VerifyOtp req w))
      with (String.eqb (OTPVerifyRequest.phone req) q).
    destruct (String.eqb_spec (OTPVerifyRequest.phone req) q) as [Heq|Hne].
    + rewrite andb_true_l.
      change (handle' s (VerifyOtp req w)) with (verify_otp req w s) in *.
      destruct (returned (verify_otp req w s).1.1) eqn:Hret.
      * apply verify_otp_returned_deletes in Hret as [[v Hv] Hs].
        rewrite Hs, Heq, lookup_delete_eq in IH. rewrite Heq in Hv.
        rewrite Hs, Heq, Hv. lia.
      * pose proof (verify_otp_lookup_None req w s q) as Hnone.
        destruct (s !! q); [destruct (_ !! q); lia |].
        rewrite Hnone in IH by reflexivity. lia.
    + rewrite andb_false_l.
      rewrite (handle_lookup_ne _ _ _ (VerifyOtp req w) s q Hne) in IH. lia.
Qed.

(** X16. A code is good for one verification: over any sequence of requests from
    the empty store, [verify_otp] accepts for a phone at most as many times as
    [send_otp] was asked for that phone. *)
Theorem accepted_at_most_once_per_issue q (rs : list request) :
  (accepted' q otp_store rs <= length (filter (is_issue_of q) rs))%nat.
Proof.
  pose proof (accepted_bound q rs otp_store) as H.
  unfold otp_store in H. rewrite lookup_empty in H. exact H.
Qed.

Lemma serve_provenance (rs : list request) : forall s k v,
  serve' s rs !! k = Some v ->
  s !! k = Some v \/
  exists req w, In (SendOtp req w) rs /\ OTPRequest.phone req = k /\ v = challenge w.
Proof.
  induction rs as [|r rs IH]; intros s k v Hk; [now left |].
  rewrite serve_cons in Hk. destruct (IH _ _ _ Hk) as [Hs | (req & w & Hin & Hp & Hv)].
  - destruct r as [req w|req w]; simpl in Hs.
    + destruct (send_otp_store_cases TWILIO_ACCOUNT TWILIO_TOKEN TWILIO_FROM req w s)
        as [[_ Hst]|[_ Hst]];
        rewrite Hst in Hs; [now left |].
      rewrite lookup_insert in Hs. case_decide; [| now left].
      right. exists req, w. injection Hs as <-. repeat split; [now left | assumption].
    + left. destruct (verify_otp_cases req w s) as [[Hst | Hst] _];
        rewrite Hst in Hs; [assumption |].
      apply lookup_delete_Some in Hs. tauto.
  - right. exists req, w. repeat split; [now right | assumption | assumption].
Qed.

(** X17. Every challenge in the store was put there by a [send_otp] request for
    that very phone: its code is the draw of that request and its expiry the
    time of that request plus [5*60]. *)
Theorem stored_challenges_were_issued (rs : list request) k v :
  serve' otp_store rs !! k = Some v ->
  exists req w,
    In (SendOtp req w) rs /\ OTPRequest.phone req = k /\
    v = (Py.format_06d (w_randint w), (w_time w + ttl)%float).
Proof.
  intros Hk. destruct (serve_provenance rs otp_store k v Hk) as [H | H]; [| exact H].
  unfold otp_store in H. rewrite lookup_empty in H. discriminate.
Qed.

(** X18. [send_otp] never looks at the store: its answer and its outside calls are
    the same whatever is pending, so a challenge already there, expired or
    not, neither blocks nor limits a new one. *)
Theorem issue_ignores_store req w s s' :
  (send_otp TWILIO_ACCOUNT TWILIO_TOKEN TWILIO_FROM req w s).1.1
  = (send_otp TWILIO_ACCOUNT TWILIO_TOKEN TWILIO_FROM req w s').1.1 /\
  (send_otp TWILIO_ACCOUNT TWILIO_TOKEN TWILIO_FROM req w s).2
  = (send_otp TWILIO_ACCOUNT TWILIO_TOKEN TWILIO_FROM req w s').2.
Proof.
  destruct req as [[|c phone]]; [now rewrite !send_otp_empty |].
  destruct (twilio_configured TWILIO_ACCOUNT TWILIO_TOKEN TWILIO_FROM) eqn:Hc.
  - rewrite !(send_otp_configured _ _ _ (String c phone) w _ ltac:(discriminate) Hc).
    split; reflexivity.
  - rewrite !(send_otp_testing_mode _ _ _ (String c phone) w _ ltac:(discriminate) Hc).
    split; reflexivity.
Qed.

End Replay.

(** ** The further theorems at work *)


Lemma stored_codes_are_six_digits_witness :
  Py.six_digits "000007" = true.
Proof.
  apply (stored_codes_are_six_digits None None None
           [SendOtp {| OTPRequest.phone := alice |} (world_at 42017 1000);
            SendOtp {| OTPRequest.phone := bob |} (world_at 7 2000)]
           bob "000007" 2300%float).
  - repeat (constructor; [simpl; lia |]). constructor.
  - reflexivity.
Defined.

(** Three wrong codes for [alice], then nothing has changed. *)
Lemma wrong_codes_never_consume_witness :
  serve None None None pending_alice
    (map (attempt alice)
       [("000000", world_at 0 1010); ("000001", world_at 0 1011);
        ("999999", world_at 0 1012)])
  = pending_alice.
Proof.
  apply (proj1 (wrong_codes_never_consume None None None alice "042017" 1300%float
           [("000000", world_at 0 1010); ("000001", world_at 0 1011);
            ("999999", world_at 0 1012)] pending_alice eq_refl
           ltac:(repeat (constructor; [split; [discriminate | reflexivity] |]);
                 constructor))).
Defined.

Lemma verify_at_expiry_instant_witness :
  verify_otp {| OTPVerifyRequest.phone := alice; OTPVerifyRequest.code := "042017" |}
    (world_at 0 1300) pending_alice
  = (inr verified, delete alice pending_alice, [TimeTime]).
Proof.
  apply (verify_at_expiry_instant alice "042017" 1300%float); reflexivity.
Defined.


(** Only the account is set: the code comes back in band and verifies. *)
Lemma testing_mode_code_verifies_witness :
  exists code,
    (send_otp (Some "AC0123456789") None (Some "")
       {| OTPRequest.phone := alice |} (world_at 42017 1000) otp_store).1.1
    = inr [("sent", JBool true); ("code", JStr code)] /\
    (send_otp (Some "AC0123456789") None (Some "")
       {| OTPRequest.phone := alice |} (world_at 42017 1000) otp_store).2
    = [RandomRandint 0 999999; TimeTime] /\
    verify_otp {| OTPVerifyRequest.phone := alice; OTPVerifyRequest.code := code |}
      (world_at 0 1010)
      (send_otp (Some "AC0123456789") None (Some "")
         {| OTPRequest.phone := alice |} (world_at 42017 1000) otp_store).1.2
    = (inr verified,
       delete alice
         (send_otp (Some "AC0123456789") None (Some "")
            {| OTPRequest.phone := alice |} (world_at 42017 1000) otp_store).1.2,
       [TimeTime]).
Proof.
  apply (testing_mode_code_verifies (Some "AC0123456789") None (Some "")
           alice (world_at 42017 1000) (world_at 0 1010) otp_store).
  - reflexivity.
  - discriminate.
  - reflexivity.
  - reflexivity.
Defined.

(** An empty token: nothing is posted. *)
Lemma delivery_attempted_iff_credentials_witness :
  ~ exists url data auth,
      In (HttpxPost url data auth)
         (send_otp (Some "AC0123456789") (Some "") (Some "+15550100")
            {| OTPRequest.phone := alice |} (world_at 42017 1000) otp_store).2.
Proof.
  intros H.
  apply (delivery_attempted_iff_credentials (Some "AC0123456789") (Some "")
           (Some "+15550100") alice (world_at 42017 1000) otp_store) in H;
    [| discriminate].
  destruct H as (a & t & f & _ & [= <-] & _ & _ & Ht & _). now apply Ht.
Defined.

Lemma distinct_draws_distinct_codes_witness :
  Py.format_06d 42017 = Py.format_06d 7 <-> 42017 = 7.
Proof. apply distinct_draws_distinct_codes; lia. Defined.

Lemma six_digit_string_is_a_code_witness :
  0 <= Py.int_of_digits 0 "000007" <= 999999 /\
  Py.format_06d (Py.int_of_digits 0 "000007") = "000007".
Proof. apply six_digit_string_is_a_code. reflexivity. Defined.


(** The challenge of [bob] comes from the request made for [bob]. *)
Lemma stored_challenges_were_issued_witness :
  exists req w,
    In (SendOtp req w)
       [SendOtp {| OTPRequest.phone := alice |} (world_at 42017 1000);
        SendOtp {| OTPRequest.phone := bob |} (world_at 7 2000)] /\
    OTPRequest.phone req = bob /\
    ("000007", 2300%float) = (Py.format_06d (w_randint w), (w_time w + ttl)%float).
Proof.
  apply (stored_challenges_were_issued None None None). reflexivity.
Defined.
